(** * soundstreamer.py: the PipeWire link manager and its routing front end

    A shallow embedding of [PipewireManager] and of the routing methods of
    [AudioRouterApp].  The external tools (pw-dump, pw-link) are an
    environment the program steps through [subprocess.run]; Python
    exceptions are an explicit outcome; the manager's [internal_links]
    list is threaded as state. *)

From Stdlib Require Import ZArith List String Bool Lia DecimalString.
Import ListNotations.
Open Scope Z_scope.
Open Scope list_scope.
Set Warnings "-register-all".

(** ** Python values *)

(** What [json.loads] yields.  Numbers with a fraction or an exponent
    (Python floats) are left out.  [JObj] holds the items of the decoded
    dict, in insertion order. *)
Inductive json : Type :=
| JNull
| JBool (b : bool)
| JInt (n : Z)
| JStr (s : string)
| JArr (xs : list json)
| JObj (items : list (string * json)).

Inductive exn : Type :=
| OSError | JSONDecodeError | TypeError | AttributeError | ValueError.

Inductive outcome (A : Type) : Type :=
| Return (a : A)
| Raise (e : exn).
Arguments Return {A} a.
Arguments Raise {A} e.

Definition obind {A B} (m : outcome A) (k : A -> outcome B) : outcome B :=
  match m with
  | Return a => k a
  | Raise e => Raise e
  end.

(** Node ids are the integer [id] fields of pw-dump objects. *)
Definition node_id := Z.
Definition link := (node_id * node_id)%type.

Definition link_eqb (x y : link) : bool :=
  (fst x =? fst y) && (snd x =? snd y).

Definition link_eq_dec (x y : link) : {x = y} + {x <> y}.
Proof. decide equality; apply Z.eq_dec. Defined.

(** [str(n)] for an int. *)
Definition str (n : Z) : string := NilZero.string_of_int (Z.to_int n).

Fixpoint dict_get (items : list (string * json)) (key : string) : option json :=
  match items with
  | [] => None
  | (k, v) :: rest => if String.eqb k key then Some v else dict_get rest key
  end.

(** [d.get(key, default)]: only a dict has the method. *)
Definition py_get (d : json) (key : string) (default : json) : outcome json :=
  match d with
  | JObj items =>
      Return (match dict_get items key with Some v => v | None => default end)
  | _ => Raise AttributeError
  end.

(** [v == n] for an int [n]; Python's [True == 1] and [False == 0]. *)
Definition py_eq_int (v : json) (n : Z) : bool :=
  match v with
  | JInt m => m =? n
  | JBool b => (if b then 1 else 0) =? n
  | _ => false
  end.

(** [v == s] for a str [s]. *)
Definition py_eq_str (v : json) (s : string) : bool :=
  match v with
  | JStr t => String.eqb t s
  | _ => false
  end.

(** The items a [for] loop draws from a value: the elements of a list, the
    keys of a dict, the characters of a str. *)
Definition py_iter (v : json) : outcome (list json) :=
  match v with
  | JArr xs => Return xs
  | JObj items => Return (map (fun kv => JStr (fst kv)) items)
  | JStr s => Return (map (fun c => JStr (String c EmptyString)) (list_ascii_of_string s))
  | _ => Raise TypeError
  end.

Fixpoint is_substring (needle s : string) : bool :=
  String.prefix needle s ||
  match s with
  | EmptyString => false
  | String _ s' => is_substring needle s'
  end.

(** [needle in v] for a str [needle]. *)
Definition py_in (needle : string) (v : json) : outcome bool :=
  match v with
  | JStr s => Return (is_substring needle s)
  | JArr xs => Return (existsb (fun x => py_eq_str x needle) xs)
  | JObj items => Return (existsb (fun kv => String.eqb (fst kv) needle) items)
  | _ => Raise TypeError
  end.

(** Truth value of a decoded value, as [if v] tests it. *)
Definition truthy (v : json) : bool :=
  match v with
  | JNull => false
  | JBool b => b
  | JInt n => negb (n =? 0)
  | JStr s => negb (String.eqb s "")
  | JArr xs => match xs with [] => false | _ => true end
  | JObj items => match items with [] => false | _ => true end
  end.

(** [l.remove(x)]: drops the first element equal to [x]; [None] stands for
    the [ValueError] raised when there is none. *)
Fixpoint list_remove (x : link) (l : list link) : option (list link) :=
  match l with
  | [] => None
  | y :: l' =>
      if link_eqb y x then Some l'
      else match list_remove x l' with
           | Some r => Some (y :: r)
           | None => None
           end
  end.

(** ** External processes *)

(** What the program reads of a [CompletedProcess]: the exit code, and the
    document [json.loads(result.stdout)] decodes ([None] when it raises). *)
Record CompletedProcess : Type := {
  returncode : Z;
  stdout : option json
}.

Inductive run_result : Type :=
| Completed (p : CompletedProcess)
| RunRaises (e : exn).

Definition argv := list string.

(** Calls of the manager, logged with the value they returned. *)
Inductive call : Type :=
| CreateLink (output_node_id input_node_id : node_id)
| RemoveLink (output_node_id input_node_id : node_id).

(** What the front end shows: a warning box or a status bar message. *)
Inductive feedback : Type :=
| Warning (text : string)
| Created (success_count : nat)   (* f"Created {success_count} audio links successfully" *)
| Failed.                         (* "Failed to create audio links" *)

(** The text of a source application: a value of the props, or the f-string
    [f"{process_name} - {title}"]. *)
Inductive label : Type :=
| Plain (v : json)
| Titled (process_name title : json).

(** ** Node listings (the loops of get_active_applications and
    get_microphones over the decoded objects) *)

Definition application_name (props : json) : outcome label :=
  obind (py_get props "node.name" (JStr "Unknown App")) (fun fallback =>
  obind (py_get props "application.name" fallback) (fun process_name =>
  obind (py_get props "media.name" (JStr "")) (fun title =>
  Return (if truthy title then Titled process_name title
          else Plain process_name)))).

Definition microphone_name (props : json) : outcome json :=
  py_get props "node.name" (JStr "Unknown Microphone").

(** One turn of the loop: [Some] entry to append, or nothing. *)
Definition application_of (obj : json) : outcome (option (json * label)) :=
  obind (py_get obj "type" JNull) (fun ty =>
  if py_eq_str ty "PipeWire:Interface:Node" then
    obind (py_get obj "info" (JObj [])) (fun info =>
    obind (py_get info "props" (JObj [])) (fun props =>
    obind (py_get props "media.class" (JStr "")) (fun media_class =>
    obind (py_in "Stream/Output/Audio" media_class) (fun is_app =>
    if is_app then
      obind (py_get obj "id" JNull) (fun node_id =>
      obind (application_name props) (fun app_name =>
      Return (Some (node_id, app_name))))
    else Return None))))
  else Return None).

Definition microphone_of (obj : json) : outcome (option (json * json)) :=
  obind (py_get obj "type" JNull) (fun ty =>
  if py_eq_str ty "PipeWire:Interface:Node" then
    obind (py_get obj "info" (JObj [])) (fun info =>
    obind (py_get info "props" (JObj [])) (fun props =>
    obind (py_get props "media.class" (JStr "")) (fun media_class =>
    obind (py_in "Audio/Source" media_class) (fun is_mic =>
    if is_mic then
      obind (py_get obj "id" JNull) (fun node_id =>
      obind (microphone_name props) (fun mic_name =>
      Return (Some (node_id, mic_name))))
    else Return None))))
  else Return None).

Fixpoint collect {A} (turn : json -> outcome (option A)) (objs : list json)
  : outcome (list A) :=
  match objs with
  | [] => Return []
  | obj :: rest =>
      obind (turn obj) (fun entry =>
      obind (collect turn rest) (fun entries =>
      Return (match entry with
              | Some e => e :: entries
              | None => entries
              end)))
  end.

(** [f"Unknown Node ({node_id})"] *)
Definition unknown_node (n : node_id) : json :=
  JStr ("Unknown Node (" ++ str n ++ ")").

(** The loop of get_node_process_name; falling off its end returns None. *)
Fixpoint scan_name (objs : list json) (n : node_id) : outcome json :=
  match objs with
  | [] => Return JNull
  | obj :: rest =>
      obind (py_get obj "id" JNull) (fun id =>
      if py_eq_int id n then
        obind (py_get obj "info" (JObj [])) (fun info =>
        obind (py_get info "props" (JObj [])) (fun props =>
        obind (py_get props "node.name" (unknown_node n)) (fun fallback =>
        py_get props "application.name" fallback)))
      else scan_name rest n)
  end.

(** ** A scripted environment: the outcomes of the coming commands, in
    order; once the script is used up every command fails to start. *)
Definition script := list run_result.

Definition scripted_run (w : script) (cmd : argv) : run_result * script :=
  match w with
  | [] => (RunRaises OSError, [])
  | r :: w' => (r, w')
  end.

Definition exits (code : Z) (doc : option json) : run_result :=
  Completed {| returncode := code; stdout := doc |}.

(** pw-dump printing a graph without links, and with the one link o -> i. *)
Definition no_links : run_result := exits 0 (Some (JArr [])).

Definition one_link (o i : node_id) : run_result :=
  exits 0 (Some (JArr [JObj [("type", JStr "PipeWire:Interface:Link");
                             ("info", JObj [("output-node-id", JInt o);
                                            ("input-node-id", JInt i)])]]))%string.

(** pw-link exiting 0; it prints no JSON. *)
Definition done : run_result := exits 0 None.

(** A capture device whose props carry an application name as well. *)
Definition microphone_props : list (string * json) :=
  [("media.class", JStr "Audio/Source");
   ("application.name", JStr "PipeWire");
   ("node.name", JStr "alsa_input.pci")]%string.

Definition sample_microphone : json :=
  JObj [("type", JStr "PipeWire:Interface:Node"); ("id", JInt 42);
        ("info", JObj [("props", JObj microphone_props)])]%string.

Definition application_props : list (string * json) :=
  [("media.class", JStr "Stream/Output/Audio");
   ("node.name", JStr "Firefox");
   ("media.name", JStr "AudioStream")]%string.

Definition sample_application : json :=
  JObj [("type", JStr "PipeWire:Interface:Node"); ("id", JInt 57);
        ("info", JObj [("props", JObj application_props)])]%string.

(** A link object as pw-dump prints it. *)
Definition link_object (l : link) : json :=
  JObj [("type", JStr "PipeWire:Interface:Link");
        ("info", JObj [("output-node-id", JInt (fst l));
                       ("input-node-id", JInt (snd l))])]%string.

(** How the start of the program ends: the error box and [sys.exit(1)], or
    the window shown. *)
Inductive startup : Type :=
| Refused (missing_tools : list string)
| Shown.

(** A node whose media class is null, and a node without a media class. *)
Definition null_class_node : json :=
  JObj [("type", JStr "PipeWire:Interface:Node"); ("id", JInt 61);
        ("info", JObj [("props", JObj [("media.class", JNull)])])]%string.

Definition bare_node : json :=
  JObj [("type", JStr "PipeWire:Interface:Node"); ("id", JInt 62);
        ("info", JObj [("props", JObj [("node.name", JStr "dummy")])])]%string.

(** ** The naming rules *)

(** [obj.get("info", {}).get("props", {})] *)
Definition props_of (obj : json) : outcome json :=
  obind (py_get obj "info" (JObj [])) (fun info => py_get info "props" (JObj [])).

Definition first_of (items : list (string * json)) (keys : list string)
           (placeholder : string) : json :=
  fold_right (fun key rest =>
                match dict_get items key with Some v => v | None => rest end)
             (JStr placeholder) keys.

(** The rule in the words of the specification: application.name, else
    node.name, else a placeholder, and media.name appended when present. *)
Definition spec_display_name (placeholder : string)
           (items : list (string * json)) : label :=
  let base := first_of items ["application.name"; "node.name"]%string placeholder in
  match dict_get items "media.name" with
  | Some title => Titled base title
  | None => Plain base
  end.

(** The rule of get_active_applications: the title is appended when it is
    present and true as a condition (for a str: not empty). *)
Definition application_label (items : list (string * json)) : label :=
  let base := first_of items ["application.name"; "node.name"]%string "Unknown App" in
  match dict_get items "media.name" with
  | Some title => if truthy title then Titled base title else Plain base
  | None => Plain base
  end.

(** The rule of get_microphones: node.name, else a placeholder. *)
Definition microphone_label (items : list (string * json)) : json :=
  first_of items ["node.name"%string] "Unknown Microphone".

Section Program.

(** The environment: any deterministic world that answers each command. *)
Variable World : Type.
Variable subprocess_run : World -> argv -> run_result * World.

(** Whether PyQt's [setText] takes a decoded value that is not a str in
    place of one; where it does not, it raises TypeError. *)
Variable setText_takes : json -> bool.

(** [internal_links] is the manager's list; [issued] and [calls] record,
    oldest first, the commands handed to [subprocess.run] and the manager
    calls that returned. *)
Record state : Type := {
  world : World;
  issued : list argv;
  calls : list (call * bool);
  internal_links : list link
}.

(** [__init__]: the manager starts with no links. *)
Definition init (w : World) : state :=
  {| world := w; issued := []; calls := []; internal_links := [] |}.

Definition M (A : Type) : Type := state -> outcome A * state.

Definition ret {A} (a : A) : M A := fun s => (Return a, s).

Definition raise {A} (e : exn) : M A := fun s => (Raise e, s).

Definition bind {A B} (m : M A) (k : A -> M B) : M B :=
  fun s =>
    match m s with
    | (Return a, s') => k a s'
    | (Raise e, s') => (Raise e, s')
    end.

Definition lift {A} (o : outcome A) : M A := fun s => (o, s).

(** [try: m  except Exception as e: h e] *)
Definition try_except {A} (m : M A) (h : exn -> M A) : M A :=
  fun s =>
    match m s with
    | (Return a, s') => (Return a, s')
    | (Raise e, s') => h e s'
    end.

Notation "x <- m ;; k" := (bind m (fun x => k))
  (at level 61, m at next level, right associativity).
Notation "m ;;; k" := (bind m (fun _ => k))
  (at level 61, right associativity).

(** The answer of the environment to [cmd] in state [s], and the state it
    leaves. *)
Definition answer (s : state) (cmd : argv) : run_result :=
  fst (subprocess_run (world s) cmd).

Definition after_run (s : state) (cmd : argv) : state :=
  {| world := snd (subprocess_run (world s) cmd);
     issued := issued s ++ [cmd];
     calls := calls s; internal_links := internal_links s |}.

(** [subprocess.run(cmd, capture_output=True, text=True)] *)
Definition run (cmd : argv) : M CompletedProcess :=
  fun s =>
    match answer s cmd with
    | Completed p => (Return p, after_run s cmd)
    | RunRaises e => (Raise e, after_run s cmd)
    end.

Definition json_loads (out : option json) : M json :=
  match out with
  | Some doc => ret doc
  | None => raise JSONDecodeError
  end.

Definition set_links (ls : list link) (s : state) : state :=
  {| world := world s; issued := issued s; calls := calls s;
     internal_links := ls |}.

Definition log_call (c : call) (b : bool) (s : state) : state :=
  {| world := world s; issued := issued s; calls := calls s ++ [(c, b)];
     internal_links := internal_links s |}.

Definition links_append (l : link) : M unit :=
  fun s => (Return tt, set_links (internal_links s ++ [l]) s).

Definition links_remove (l : link) : M unit :=
  fun s =>
    match list_remove l (internal_links s) with
    | Some r => (Return tt, set_links r s)
    | None => (Raise ValueError, s)
    end.

Definition links_clear : M unit :=
  fun s => (Return tt, set_links [] s).

Definition returned (c : call) (b : bool) : M bool :=
  fun s => (Return b, log_call c b s).

(** ** PipewireManager *)

(** The loop of [link_exists] over the decoded objects. *)
Fixpoint scan_links (objs : list json) (output_node_id input_node_id : node_id)
  : outcome bool :=
  match objs with
  | [] => Return false
  | obj :: rest =>
      obind (py_get obj "type" JNull) (fun ty =>
      if py_eq_str ty "PipeWire:Interface:Link" then
        obind (py_get obj "info" (JObj [])) (fun info =>
        obind (py_get info "output-node-id" JNull) (fun existing_output_node_id =>
        obind (py_get info "input-node-id" JNull) (fun existing_input_node_id =>
        if py_eq_int existing_output_node_id output_node_id
           && py_eq_int existing_input_node_id input_node_id
        then Return true
        else scan_links rest output_node_id input_node_id)))
      else scan_links rest output_node_id input_node_id)
  end.

Definition link_exists (output_node_id input_node_id : node_id) : M bool :=
  try_except
    (result <- run ["pw-dump"%string] ;;
     if negb (returncode result =? 0) then ret false
     else
       pw_objects <- json_loads (stdout result) ;;
       objs <- lift (py_iter pw_objects) ;;
       lift (scan_links objs output_node_id input_node_id))
    (fun _ => ret false).

Definition create_link_body (output_node_id input_node_id : node_id) : M bool :=
  try_except
    (found <- link_exists output_node_id input_node_id ;;
     if found then ret false
     else
       result <- run ["pw-link"%string; str output_node_id; str input_node_id] ;;
       if returncode result =? 0 then
         links_append (output_node_id, input_node_id) ;;;
         ret true
       else ret false)
    (fun _ => ret false).

Definition create_link (output_node_id input_node_id : node_id) : M bool :=
  b <- create_link_body output_node_id input_node_id ;;
  returned (CreateLink output_node_id input_node_id) b.

Definition remove_link_body (output_node_id input_node_id : node_id) : M bool :=
  try_except
    (result <- run ["pw-link"%string; "-d"%string;
                    str output_node_id; str input_node_id] ;;
     if returncode result =? 0 then
       links_remove (output_node_id, input_node_id) ;;;
       ret true
     else ret false)
    (fun _ => ret false).

Definition remove_link (output_node_id input_node_id : node_id) : M bool :=
  b <- remove_link_body output_node_id input_node_id ;;
  returned (RemoveLink output_node_id input_node_id) b.

(** [for x in xs: body x] *)
Fixpoint for_each {A} (xs : list A) (body : A -> M unit) : M unit :=
  match xs with
  | [] => ret tt
  | x :: rest => body x ;;; for_each rest body
  end.

(** The loop runs over the copy [self.internal_links[:]] taken on entry. *)
Definition remove_all_links : M unit :=
  fun s =>
    (for_each (internal_links s)
              (fun l => _ <- remove_link (fst l) (snd l) ;; ret tt) ;;;
     links_clear) s.

Definition closeEvent : M unit := remove_all_links.

(** ** AudioRouterApp *)

(** The pw-dump part shared by the two listings: [[]] on a non-zero exit
    and on any exception. *)
Definition listing {A} (turn : json -> outcome (option A)) : M (list A) :=
  try_except
    (result <- run ["pw-dump"%string] ;;
     if negb (returncode result =? 0) then ret []
     else
       pw_objects <- json_loads (stdout result) ;;
       objs <- lift (py_iter pw_objects) ;;
       lift (collect turn objs))
    (fun _ => ret []).

Definition get_active_applications : M (list (json * label)) :=
  listing application_of.

Definition get_microphones : M (list (json * json)) :=
  listing microphone_of.

Definition get_node_process_name (n : node_id) : M json :=
  try_except
    (result <- run ["pw-dump"%string] ;;
     if negb (returncode result =? 0) then ret (unknown_node n)
     else
       pw_objects <- json_loads (stdout result) ;;
       objs <- lift (py_iter pw_objects) ;;
       lift (scan_name objs n))
    (fun _ => ret (unknown_node n)).

(** The rows update_links_list puts into links_list: the two names of the
    text and the pair kept as item data. *)
Fixpoint links_rows (ls : list link) : M (list (json * json * link)) :=
  match ls with
  | [] => ret []
  | l :: rest =>
      output_name <- get_node_process_name (fst l) ;;
      input_name <- get_node_process_name (snd l) ;;
      rows <- links_rows rest ;;
      ret ((output_name, input_name, l) :: rows)
  end.

Definition update_links_list : M (list (json * json * link)) :=
  fun s => links_rows (internal_links s) s.

Fixpoint targets_loop (source_id : node_id) (selected_targets : list node_id)
         (success_count : nat) : M nat :=
  match selected_targets with
  | [] => ret success_count
  | target_id :: rest =>
      ok <- create_link source_id target_id ;;
      if ok then
        update_links_list ;;;
        targets_loop source_id rest (S success_count)
      else targets_loop source_id rest success_count
  end.

Fixpoint sources_loop (selected_sources selected_targets : list node_id)
         (success_count : nat) : M nat :=
  match selected_sources with
  | [] => ret success_count
  | source_id :: rest =>
      n <- targets_loop source_id selected_targets success_count ;;
      sources_loop rest selected_targets n
  end.

(** The selected items are given by the node ids they carry. *)
Definition create_links (selected_sources selected_targets : list node_id)
  : M feedback :=
  match selected_sources, selected_targets with
  | [], _ => ret (Warning "Please select at least one source application")
  | _, [] => ret (Warning "Please select at least one target microphone")
  | _, _ =>
      success_count <- sources_loop selected_sources selected_targets 0%nat ;;
      if (0 <? success_count)%nat then ret (Created success_count)
      else ret Failed
  end.

(** The items taken off links_list, in the order they are taken. *)
Fixpoint take_removed (selected_items : list link) : M (list link) :=
  match selected_items with
  | [] => ret []
  | item :: rest =>
      ok <- remove_link (fst item) (snd item) ;;
      taken <- take_removed rest ;;
      ret (if ok then item :: taken else taken)
  end.

(** The selected items are given by the pairs they carry; the result is
    the warning shown, if any, and the items taken off links_list. *)
Definition remove_selected_links (selected_items : list link)
  : M (option string * list link) :=
  match selected_items with
  | [] => ret (Some "Please select at least one link to remove"%string, [])
  | _ =>
      taken <- take_removed selected_items ;;
      ret (None, taken)
  end.

(** [item.setText(text)]: a str (an f-string is one) is taken; another
    value is taken or refused with TypeError, as PyQt has it. *)
Definition setText (text : label) : M unit :=
  match text with
  | Titled _ _ => ret tt
  | Plain (JStr _) => ret tt
  | Plain v => if setText_takes v then ret tt else raise TypeError
  end.

(** update_node_lists: the two lists it fills, each item given its text as
    it is added, and the two counts of its status message. *)
Definition update_node_lists
  : M (list (json * label) * list (json * json) * (nat * nat)) :=
  active_apps <- get_active_applications ;;
  for_each active_apps (fun app => setText (snd app)) ;;;
  microphones <- get_microphones ;;
  for_each microphones (fun mic => setText (Plain (snd mic))) ;;;
  ret (active_apps, microphones,
       (List.length active_apps, List.length microphones)).

(** The loop of the main block: [subprocess.run(["which", tool], check=True)]
    raises CalledProcessError on a non-zero exit code, which appends the
    tool; any other exception is not caught. *)
Fixpoint probe (tools : list string) : M (list string) :=
  match tools with
  | [] => ret []
  | tool :: rest =>
      result <- run ["which"%string; tool] ;;
      missing_tools <- probe rest ;;
      ret (if returncode result =? 0 then missing_tools
           else tool :: missing_tools)
  end.

(** The main block up to the event loop; the window's constructor runs
    update_node_lists. *)
Definition main : M startup :=
  missing_tools <- probe ["pw-cli"; "pw-link"; "pw-dump"]%string ;;
  match missing_tools with
  | [] =>
      (fun s => (Return tt, set_links [] s)) ;;;   (* PipewireManager() *)
      update_node_lists ;;;
      ret Shown
  | _ => ret (Refused missing_tools)
  end.

(** ** Sequences of manager operations *)

Inductive op : Type :=
| Create (output_node_id input_node_id : node_id)
| Remove (output_node_id input_node_id : node_id)
| RemoveAll.

Definition exec_op (x : op) : M unit :=
  match x with
  | Create o i => _ <- create_link o i ;; ret tt
  | Remove o i => _ <- remove_link o i ;; ret tt
  | RemoveAll => remove_all_links
  end.

Definition exec_ops (ops : list op) : M unit := for_each ops exec_op.

(** ** Vocabulary of the statements *)

Definition dump_cmd : argv := ["pw-dump"%string].

Definition link_cmd (o i : node_id) : argv :=
  ["pw-link"%string; str o; str i].

Definition unlink_cmd (o i : node_id) : argv :=
  ["pw-link"%string; "-d"%string; str o; str i].

(** The command ran and exited with code 0. *)
Definition exit_zero (r : run_result) : bool :=
  match r with
  | Completed p => returncode p =? 0
  | RunRaises _ => false
  end.

(** What the scan of a pw-dump answer finds, when it gets that far. *)
Definition scanned (r : run_result) (o i : node_id) : option (outcome bool) :=
  match r with
  | Completed p =>
      if returncode p =? 0 then
        match stdout p with
        | Some doc => Some (obind (py_iter doc) (fun objs => scan_links objs o i))
        | None => None
        end
      else None
  | RunRaises _ => None
  end.


(** The snapshot shows a link from [o] to [i]. *)
Definition snapshot_has (r : run_result) (o i : node_id) : bool :=
  match scanned r o i with
  | Some (Return b) => b
  | _ => false
  end.

Definition link_of (c : call) : link :=
  match c with
  | CreateLink o i => (o, i)
  | RemoveLink o i => (o, i)
  end.

Definition succeeded (entries : list (call * bool)) : list link :=
  map (fun e => link_of (fst e)) (filter snd entries).


(** No create of the run succeeds for a pair the registry holds at that
    moment. *)
Definition fresh_create (x : op) (s : state) : Prop :=
  match x with
  | Create o i =>
      fst (create_link o i s) = Return true -> ~ In (o, i) (internal_links s)
  | _ => True
  end.

Fixpoint creates_fresh (ops : list op) (s : state) : Prop :=
  match ops with
  | [] => True
  | x :: rest => fresh_create x s /\ creates_fresh rest (snd (exec_op x s))
  end.

(** What a listing makes of a pw-dump answer. *)
Definition listed {A} (turn : json -> outcome (option A)) (r : run_result)
  : list A :=
  match r with
  | Completed p =>
      if returncode p =? 0 then
        match stdout p with
        | Some doc =>
            match obind (py_iter doc) (collect turn) with
            | Return entries => entries
            | Raise _ => []
            end
        | None => []
        end
      else []
  | RunRaises _ => []
  end.

(** What get_node_process_name makes of a pw-dump answer. *)
Definition named (n : node_id) (r : run_result) : json :=
  match r with
  | Completed p =>
      if returncode p =? 0 then
        match stdout p with
        | Some doc =>
            match obind (py_iter doc) (fun objs => scan_name objs n) with
            | Return name => name
            | Raise _ => unknown_node n
            end
        | None => unknown_node n
        end
      else unknown_node n
  | RunRaises _ => unknown_node n
  end.

(** The entry one turn of a listing loop contributes. *)
Definition contribution {A} (o : outcome (option A)) : list A :=
  match o with
  | Return (Some e) => [e]
  | _ => []
  end.

(** The command starts one of the two PipeWire tools the program uses. *)
Definition runs_pw_dump_or_pw_link (cmd : argv) : bool :=
  match cmd with
  | tool :: _ => String.eqb tool "pw-dump" || String.eqb tool "pw-link"
  | [] => false
  end.

(** The query gave no document: the command did not start, exited
    non-zero, or printed what [json.loads] rejects. *)
Definition no_document (r : run_result) : bool :=
  match r with
  | Completed p =>
      negb (returncode p =? 0) ||
      match stdout p with Some _ => false | None => true end
  | RunRaises _ => true
  end.

Definition which_cmd (tool : string) : argv := ["which"%string; tool].

Definition is_create (e : call * bool) : bool :=
  match fst e with CreateLink _ _ => snd e | RemoveLink _ _ => false end.

Definition is_remove (e : call * bool) : bool :=
  match fst e with CreateLink _ _ => false | RemoveLink _ _ => snd e end.

Definition has_remove_all (ops : list op) : bool :=
  existsb (fun x => match x with RemoveAll => true | _ => false end) ops.

(** ** Equations of the manager's methods *)

Lemma link_exists_eq (o i : node_id) (s : state) :
  link_exists o i s =
  (Return (snapshot_has (answer s dump_cmd) o i), after_run s dump_cmd).
Proof.
  unfold link_exists, try_except, bind, run, snapshot_has, scanned, dump_cmd.
  destruct (answer s ["pw-dump"%string]) as [p | e]; [ | reflexivity ].
  destruct (returncode p =? 0); [ | reflexivity ].
  destruct (stdout p) as [doc | ]; [ | reflexivity ].
  cbn. destruct (py_iter doc) as [objs | e]; [ | reflexivity ].
  cbn. destruct (scan_links objs o i); reflexivity.
Qed.

Lemma create_link_eq (o i : node_id) (s : state) :
  create_link o i s =
  let s1 := after_run s dump_cmd in
  if snapshot_has (answer s dump_cmd) o i then
    (Return false, log_call (CreateLink o i) false s1)
  else
    let s2 := after_run s1 (link_cmd o i) in
    if exit_zero (answer s1 (link_cmd o i)) then
      (Return true,
       log_call (CreateLink o i) true
                (set_links (internal_links s2 ++ [(o, i)]) s2))
    else (Return false, log_call (CreateLink o i) false s2).
Proof.
  unfold create_link, create_link_body, try_except, bind.
  rewrite link_exists_eq. cbv zeta.
  destruct (snapshot_has (answer s dump_cmd) o i); [ reflexivity | ].
  unfold run, exit_zero, link_cmd.
  destruct (answer (after_run s dump_cmd) _) as [p | e]; [ | reflexivity ].
  destruct (returncode p =? 0); reflexivity.
Qed.

Lemma remove_link_eq (o i : node_id) (s : state) :
  remove_link o i s =
  let s1 := after_run s (unlink_cmd o i) in
  if exit_zero (answer s (unlink_cmd o i)) then
    match list_remove (o, i) (internal_links s) with
    | Some r => (Return true, log_call (RemoveLink o i) true (set_links r s1))
    | None => (Return false, log_call (RemoveLink o i) false s1)
    end
  else (Return false, log_call (RemoveLink o i) false s1).
Proof.
  unfold remove_link, remove_link_body, try_except, bind, run, exit_zero,
    unlink_cmd.
  destruct (answer s _) as [p | e]; [ | reflexivity ].
  destruct (returncode p =? 0); [ | reflexivity ].
  cbv zeta. unfold links_remove. cbn [internal_links after_run].
  destruct (list_remove (o, i) (internal_links s)); reflexivity.
Qed.

Lemma get_node_process_name_eq (n : node_id) (s : state) :
  exists name, get_node_process_name n s = (Return name, after_run s dump_cmd).
Proof.
  unfold get_node_process_name, try_except, bind, run, dump_cmd.
  destruct (answer s ["pw-dump"%string]) as [p | e]; [ | eexists; reflexivity ].
  destruct (negb (returncode p =? 0)); [ eexists; reflexivity | ].
  destruct (stdout p) as [doc | ]; [ | eexists; reflexivity ].
  cbn. destruct (py_iter doc) as [objs | e]; [ | eexists; reflexivity ].
  cbn. destruct (scan_name objs n); eexists; reflexivity.
Qed.

(** update_links_list only queries: the registry and the call log stay. *)
Lemma links_rows_frame (ls : list link) :
  forall s, exists rows s',
    links_rows ls s = (Return rows, s') /\
    internal_links s' = internal_links s /\ calls s' = calls s.
Proof.
  induction ls as [ | l rest IH]; intros s.
  - exists [], s. repeat split.
  - cbn [links_rows]. unfold bind.
    destruct (get_node_process_name_eq (fst l) s) as [n1 ->].
    destruct (get_node_process_name_eq (snd l) (after_run s dump_cmd)) as [n2 ->].
    destruct (IH (after_run (after_run s dump_cmd) dump_cmd))
      as (rows & s' & -> & Hl & Hc).
    eexists; eexists; split; [ reflexivity | ]. split; assumption.
Qed.

Lemma update_links_list_frame (s : state) :
  exists rows s',
    update_links_list s = (Return rows, s') /\
    internal_links s' = internal_links s /\ calls s' = calls s.
Proof. unfold update_links_list. apply links_rows_frame. Qed.

(** ** Facts about [list.remove] *)

Lemma link_eqb_eq (x y : link) : link_eqb x y = true <-> x = y.
Proof.
  destruct x as [a b], y as [c d]. unfold link_eqb. cbn [fst snd].
  rewrite andb_true_iff, !Z.eqb_eq. split.
  - intros [-> ->]. reflexivity.
  - intros H. injection H as -> ->. split; reflexivity.
Qed.

Lemma link_eqb_refl (x : link) : link_eqb x x = true.
Proof. apply link_eqb_eq. reflexivity. Qed.

Lemma link_eqb_neq (x y : link) : link_eqb x y = false <-> x <> y.
Proof.
  rewrite <- link_eqb_eq. destruct (link_eqb x y); split; congruence.
Qed.

Lemma list_remove_absent (x : link) (l : list link) :
  list_remove x l = None <-> ~ In x l.
Proof.
  induction l as [ | y l IH]; cbn [list_remove In].
  - split; [ intros _ [] | reflexivity ].
  - destruct (link_eqb y x) eqn:E.
    + apply link_eqb_eq in E. split; [ discriminate | ].
      intros H. exfalso. apply H. left. exact E.
    + apply link_eqb_neq in E.
      destruct (list_remove x l) as [r | ].
      * split; [ discriminate | ].
        intros H. exfalso.
        assert (Hout : ~ In x l) by (intros Hin; apply H; right; exact Hin).
        apply IH in Hout. discriminate.
      * split; [ | reflexivity ].
        intros _ [H | H]; [ exact (E H) | ].
        exact (proj1 IH eq_refl H).
Qed.

(** A successful [remove] takes out the first occurrence. *)
Lemma list_remove_present (x : link) (l r : list link) :
  list_remove x l = Some r ->
  exists l1 l2, l = l1 ++ x :: l2 /\ r = l1 ++ l2 /\ ~ In x l1.
Proof.
  revert r. induction l as [ | y l IH]; cbn [list_remove]; intros r H.
  - discriminate.
  - destruct (link_eqb y x) eqn:E.
    + apply link_eqb_eq in E. subst y. injection H as <-.
      exists [], l. repeat split. intros [].
    + apply link_eqb_neq in E.
      destruct (list_remove x l) as [r' | ]; [ | discriminate ].
      injection H as <-.
      destruct (IH r' eq_refl) as (l1 & l2 & -> & -> & Hout).
      exists (y :: l1), l2. repeat split.
      intros [H | H]; [ exact (E H) | exact (Hout H) ].
Qed.

Lemma list_remove_NoDup (x : link) (l r : list link) :
  NoDup l -> list_remove x l = Some r -> NoDup r /\ ~ In x r.
Proof.
  intros Hnd H.
  destruct (list_remove_present _ _ _ H) as (l1 & l2 & -> & -> & _).
  split.
  - exact (NoDup_remove_1 _ _ _ Hnd).
  - exact (NoDup_remove_2 _ _ _ Hnd).
Qed.

Lemma list_remove_last (x : link) (l : list link) :
  ~ In x l -> list_remove x (l ++ [x]) = Some l.
Proof.
  induction l as [ | y l IH]; cbn [list_remove app In]; intros H.
  - rewrite link_eqb_refl. reflexivity.
  - assert (E : link_eqb y x = false)
      by (apply link_eqb_neq; intros ->; apply H; left; reflexivity).
    rewrite E, IH; [ reflexivity | ].
    intros Hin. apply H. right. exact Hin.
Qed.

(** ** Steps of the manager *)

Lemma create_link_step (o i : node_id) (s : state) :
  exists b s',
    create_link o i s = (Return b, s') /\
    calls s' = calls s ++ [(CreateLink o i, b)] /\
    internal_links s' = internal_links s ++ (if b then [(o, i)] else []).
Proof.
  rewrite create_link_eq. cbv zeta.
  destruct (snapshot_has (answer s dump_cmd) o i);
    [ | destruct (exit_zero (answer (after_run s dump_cmd) (link_cmd o i))) ];
    eexists; eexists; (split; [ reflexivity | ]); cbn;
    rewrite ?app_nil_r; split; reflexivity.
Qed.

Lemma remove_link_step (o i : node_id) (s : state) :
  exists b s',
    remove_link o i s = (Return b, s') /\
    calls s' = calls s ++ [(RemoveLink o i, b)] /\
    issued s' = issued s ++ [unlink_cmd o i] /\
    (if b then list_remove (o, i) (internal_links s) = Some (internal_links s')
     else internal_links s' = internal_links s).
Proof.
  rewrite remove_link_eq. cbv zeta.
  destruct (exit_zero (answer s (unlink_cmd o i)));
    [ destruct (list_remove (o, i) (internal_links s)) eqn:E | ];
    eexists; eexists; (split; [ reflexivity | ]); cbn;
    repeat split; try reflexivity; exact E.
Qed.

(** [remove_link] after a deletion command that exits 0: a registered pair
    loses its first entry and the call returns true; for a pair the
    registry does not hold the ValueError of [list.remove] turns the
    result into false. *)
Lemma remove_link_registered (o i : node_id) (s : state) (r : list link) :
  exit_zero (answer s (unlink_cmd o i)) = true ->
  list_remove (o, i) (internal_links s) = Some r ->
  fst (remove_link o i s) = Return true /\
  internal_links (snd (remove_link o i s)) = r.
Proof.
  intros Hz Hr. rewrite remove_link_eq. cbv zeta. rewrite Hz, Hr.
  split; reflexivity.
Qed.

Lemma remove_link_unregistered (o i : node_id) (s : state) :
  exit_zero (answer s (unlink_cmd o i)) = true ->
  ~ In (o, i) (internal_links s) ->
  fst (remove_link o i s) = Return false /\
  internal_links (snd (remove_link o i s)) = internal_links s.
Proof.
  intros Hz Hout. apply list_remove_absent in Hout.
  rewrite remove_link_eq. cbv zeta. rewrite Hz, Hout. split; reflexivity.
Qed.

(** ** The manager's contracts *)

(** C10: [link_exists] leaves the registry as it is; [create_link] keeps
    every registered entry in place and, exactly when it returns true,
    appends the one new pair at the end. *)
Theorem exists_create_frame (o i : node_id) (s : state) :
  internal_links (snd (link_exists o i s)) = internal_links s /\
  internal_links (snd (create_link o i s)) =
    match fst (create_link o i s) with
    | Return true => internal_links s ++ [(o, i)]
    | _ => internal_links s
    end.
Proof.
  rewrite link_exists_eq, create_link_eq. cbv zeta. split; [ reflexivity | ].
  destruct (snapshot_has (answer s dump_cmd) o i); [ reflexivity | ].
  destruct (exit_zero (answer (after_run s dump_cmd) (link_cmd o i)));
    reflexivity.
Qed.

(** C3: the contract of [create_link].  When [link_exists] answers true
    it returns false, the registry is unchanged and no further command is
    issued; otherwise the creation command is issued, and an exit code 0
    appends the pair and returns true, while a non-zero exit code or a
    command that fails to start returns false with the registry
    unchanged. *)
Theorem create_link_contract (o i : node_id) (s : state) :
  let s1 := snd (link_exists o i s) in
  let s' := snd (create_link o i s) in
  match fst (link_exists o i s) with
  | Return true =>
      fst (create_link o i s) = Return false /\
      internal_links s' = internal_links s /\
      issued s' = issued s1
  | Return false =>
      issued s' = issued s1 ++ [link_cmd o i] /\
      match answer s1 (link_cmd o i) with
      | Completed p =>
          if returncode p =? 0 then
            fst (create_link o i s) = Return true /\
            internal_links s' = internal_links s ++ [(o, i)]
          else
            fst (create_link o i s) = Return false /\
            internal_links s' = internal_links s
      | RunRaises _ =>
          fst (create_link o i s) = Return false /\
          internal_links s' = internal_links s
      end
  | Raise _ => False
  end.
Proof.
  rewrite link_exists_eq, create_link_eq. cbv zeta. cbn [fst snd].
  destruct (snapshot_has (answer s dump_cmd) o i).
  - repeat split.
  - unfold exit_zero.
    destruct (answer (after_run s dump_cmd) (link_cmd o i)) as [p | e].
    + destruct (returncode p =? 0); repeat split.
    + repeat split.
Qed.


Lemma remove_loop_spec (ls : list link) :
  forall s, exists entries s',
    for_each ls (fun l => _ <- remove_link (fst l) (snd l) ;; ret tt) s
      = (Return tt, s') /\
    issued s' = issued s ++ map (fun l => unlink_cmd (fst l) (snd l)) ls /\
    calls s' = calls s ++ entries /\
    map fst entries = map (fun l => RemoveLink (fst l) (snd l)) ls.
Proof.
  induction ls as [ | l rest IH]; intros s.
  - exists [], s. cbn. rewrite !app_nil_r. repeat split.
  - cbn [for_each]. unfold bind at 1 2.
    destruct (remove_link_step (fst l) (snd l) s)
      as (b & s2 & -> & Hc & Hi & _).
    cbn [ret]. destruct (IH s2) as (entries & s' & -> & Hi' & Hc' & Hm).
    exists ((RemoveLink (fst l) (snd l), b) :: entries), s'.
    split; [ reflexivity | ].
    rewrite Hi', Hc', Hi, Hc, <- !app_assoc. cbn. rewrite Hm.
    repeat split.
Qed.

Lemma remove_all_links_eq (s : state) :
  remove_all_links s =
  match for_each (internal_links s)
                 (fun l => _ <- remove_link (fst l) (snd l) ;; ret tt) s with
  | (Return _, s') => (Return tt, set_links [] s')
  | (Raise e, s') => (Raise e, s')
  end.
Proof. reflexivity. Qed.


(** ** Runs of operations and the uniqueness of registry entries *)

Lemma remove_all_links_run (s : state) :
  exists s', remove_all_links s = (Return tt, s') /\ internal_links s' = [].
Proof.
  rewrite remove_all_links_eq.
  destruct (remove_loop_spec (internal_links s) s) as (entries & s' & -> & _).
  eexists. split; reflexivity.
Qed.

Lemma exec_op_total (x : op) (s : state) :
  exec_op x s = (Return tt, snd (exec_op x s)).
Proof.
  destruct x as [o i | o i | ]; cbn [exec_op]; unfold bind.
  - destruct (create_link_step o i s) as (b & s' & -> & _). reflexivity.
  - destruct (remove_link_step o i s) as (b & s' & -> & _). reflexivity.
  - destruct (remove_all_links_run s) as (s' & -> & _). reflexivity.
Qed.

Lemma exec_ops_cons (x : op) (ops : list op) (s : state) :
  exec_ops (x :: ops) s = exec_ops ops (snd (exec_op x s)).
Proof.
  unfold exec_ops. cbn [for_each]. unfold bind.
  rewrite (exec_op_total x s). reflexivity.
Qed.

Lemma exec_ops_app (pre post : list op) :
  forall s, exec_ops (pre ++ post) s = exec_ops post (snd (exec_ops pre s)).
Proof.
  induction pre as [ | x pre IH]; intros s.
  - reflexivity.
  - cbn [app]. rewrite !exec_ops_cons. apply IH.
Qed.

Lemma exec_op_NoDup (x : op) (s : state) :
  NoDup (internal_links s) -> fresh_create x s ->
  NoDup (internal_links (snd (exec_op x s))).
Proof.
  intros Hnd Hfresh. destruct x as [o i | o i | ]; cbn [exec_op]; unfold bind.
  - cbn [fresh_create] in Hfresh.
    destruct (create_link_step o i s) as (b & s' & E & _ & Hl).
    rewrite E in Hfresh |- *. cbn [fst snd ret] in *. rewrite Hl.
    destruct b; [ | rewrite app_nil_r; exact Hnd ].
    apply NoDup_app; [ exact Hnd | repeat constructor; intros [] | ].
    intros l Hin [<- | []]. exact (Hfresh eq_refl Hin).
  - destruct (remove_link_step o i s) as (b & s' & -> & _ & _ & Hl).
    cbn [snd ret]. destruct b.
    + exact (proj1 (list_remove_NoDup _ _ _ Hnd Hl)).
    + rewrite Hl. exact Hnd.
  - destruct (remove_all_links_run s) as (s' & -> & Hl).
    cbn [snd]. rewrite Hl. constructor.
Qed.

Lemma creates_fresh_NoDup (ops : list op) :
  forall s, NoDup (internal_links s) -> creates_fresh ops s ->
            NoDup (internal_links (snd (exec_ops ops s))).
Proof.
  induction ops as [ | x ops IH]; intros s Hnd Hfresh.
  - exact Hnd.
  - destruct Hfresh as [Hx Hrest]. rewrite exec_ops_cons.
    apply IH; [ apply exec_op_NoDup; assumption | exact Hrest ].
Qed.

Lemma creates_fresh_app (pre post : list op) :
  forall s, creates_fresh (pre ++ post) s ->
            creates_fresh pre s /\ creates_fresh post (snd (exec_ops pre s)).
Proof.
  induction pre as [ | x pre IH]; intros s H.
  - split; [ exact I | exact H ].
  - destruct H as [Hx Hrest]. rewrite exec_ops_cons.
    destruct (IH _ Hrest) as [Hpre Hpost].
    split; [ split; assumption | exact Hpost ].
Qed.

(** C2, amended: along every run of create, remove and removeAll from
    the empty registry in which no create succeeds for a pair the
    registry holds at that moment, the registry never holds a pair twice,
    and right after each successful create of the run the registry holds
    the created pair exactly once. *)
Theorem registry_unique_when_creates_fresh (ops : list op) (s : state) :
  internal_links s = [] ->
  creates_fresh ops s ->
  (forall n, NoDup (internal_links (snd (exec_ops (firstn n ops) s)))) /\
  (forall pre o i post,
      ops = pre ++ Create o i :: post ->
      fst (create_link o i (snd (exec_ops pre s))) = Return true ->
      count_occ link_eq_dec
        (internal_links (snd (create_link o i (snd (exec_ops pre s)))))
        (o, i) = 1%nat).
Proof.
  intros Hempty Hfresh.
  assert (Hnd : NoDup (internal_links s)) by (rewrite Hempty; constructor).
  split.
  - intros n. apply creates_fresh_NoDup; [ exact Hnd | ].
    rewrite <- (firstn_skipn n ops) in Hfresh.
    exact (proj1 (creates_fresh_app _ _ _ Hfresh)).
  - intros pre o i post -> Htrue.
    destruct (creates_fresh_app _ _ _ Hfresh) as [_ [Hnew _]].
    cbn [fresh_create] in Hnew. specialize (Hnew Htrue).
    destruct (create_link_step o i (snd (exec_ops pre s)))
      as (b & s' & E & _ & Hl).
    rewrite E in Htrue |- *. cbn [fst snd] in *.
    injection Htrue as ->. rewrite Hl, count_occ_app.
    rewrite (proj1 (count_occ_not_In link_eq_dec _ _) Hnew).
    rewrite count_occ_cons_eq by reflexivity. reflexivity.
Qed.

(** C8, amended: for a pair the registry does not hold, when
    [link_exists] answers false and the creation and the deletion command
    both exit 0, [create_link] then [remove_link] return true and true,
    and the registry is back to what it was, without the pair. *)
Theorem create_then_remove (a b : node_id) (s : state) :
  ~ In (a, b) (internal_links s) ->
  fst (link_exists a b s) = Return false ->
  exit_zero (answer (snd (link_exists a b s)) (link_cmd a b)) = true ->
  exit_zero (answer (snd (create_link a b s)) (unlink_cmd a b)) = true ->
  fst (create_link a b s) = Return true /\
  fst (remove_link a b (snd (create_link a b s))) = Return true /\
  internal_links (snd (remove_link a b (snd (create_link a b s))))
    = internal_links s /\
  ~ In (a, b)
    (internal_links (snd (remove_link a b (snd (create_link a b s))))).
Proof.
  intros Hout Hq Hc Hd.
  assert (Hs : internal_links (snd (create_link a b s))
               = internal_links s ++ [(a, b)] /\
               fst (create_link a b s) = Return true).
  { revert Hq Hc. rewrite link_exists_eq, create_link_eq. cbv zeta.
    cbn [fst snd]. intros Hq Hc. injection Hq as ->. rewrite Hc.
    split; reflexivity. }
  destruct Hs as [Hs Ht]. split; [ exact Ht | ].
  rewrite remove_link_eq. cbv zeta. rewrite Hd, Hs.
  pose proof (list_remove_last _ _ Hout) as Hr.
  unfold link in *. rewrite Hr. cbn. repeat split. exact Hout.
Qed.

(** ** The routing front end *)

Lemma targets_loop_spec (source_id : node_id) (targets : list node_id) :
  forall n s, exists entries s',
    targets_loop source_id targets n s
      = (Return (n + List.length (filter snd entries))%nat, s') /\
    calls s' = calls s ++ entries /\
    map fst entries = map (CreateLink source_id) targets /\
    internal_links s' = internal_links s ++ succeeded entries.
Proof.
  induction targets as [ | t rest IH]; intros n s.
  - exists [], s. cbn. rewrite Nat.add_0_r, !app_nil_r. repeat split.
  - cbn [targets_loop]. unfold bind at 1.
    destruct (create_link_step source_id t s) as (b & s1 & -> & Hc & Hl).
    assert (Hnext : exists s2 m,
               (if b then
                  update_links_list ;;; targets_loop source_id rest (S n)
                else targets_loop source_id rest n) s1
               = targets_loop source_id rest m s2 /\
               m = (n + (if b then 1 else 0))%nat /\
               calls s2 = calls s1 /\ internal_links s2 = internal_links s1).
    { destruct b.
      - unfold bind.
        destruct (update_links_list_frame s1) as (rows & s2 & -> & Hl2 & Hc2).
        exists s2, (S n). repeat split; [ lia | | ]; assumption.
      - exists s1, n. repeat split. lia. }
    destruct Hnext as (s2 & m & -> & -> & Hc2 & Hl2).
    destruct (IH (n + (if b then 1 else 0))%nat s2)
      as (entries & s' & -> & Hc' & Hm & Hl').
    exists ((CreateLink source_id t, b) :: entries), s'.
    rewrite Hc', Hl', Hc2, Hl2, Hc, Hl, <- !app_assoc.
    unfold succeeded. cbn [filter snd map fst].
    destruct b; cbn [List.length map app fst link_of]; rewrite Hm;
      (split; [ apply f_equal2; [ apply f_equal; lia | reflexivity ]
              | repeat split ]).
Qed.

Lemma sources_loop_spec (sources targets : list node_id) :
  forall n s, exists entries s',
    sources_loop sources targets n s
      = (Return (n + List.length (filter snd entries))%nat, s') /\
    calls s' = calls s ++ entries /\
    map fst entries =
      map (fun p => CreateLink (fst p) (snd p)) (list_prod sources targets) /\
    internal_links s' = internal_links s ++ succeeded entries.
Proof.
  induction sources as [ | src rest IH]; intros n s.
  - exists [], s. cbn. rewrite Nat.add_0_r, !app_nil_r. repeat split.
  - cbn [sources_loop]. unfold bind.
    destruct (targets_loop_spec src targets n s)
      as (e1 & s1 & -> & Hc1 & Hm1 & Hl1).
    destruct (IH (n + List.length (filter snd e1))%nat s1)
      as (e2 & s' & -> & Hc2 & Hm2 & Hl2).
    exists (e1 ++ e2), s'.
    rewrite Hc2, Hl2, Hc1, Hl1, <- !app_assoc.
    unfold succeeded. rewrite filter_app, !map_app, length_app, Hm1, Hm2.
    cbn [list_prod]. rewrite map_app, map_map. cbn [fst snd].
    split; [ apply f_equal2; [ apply f_equal; lia | reflexivity ]
           | repeat split ].
Qed.



Lemma take_removed_spec (selected : list link) :
  forall s, exists entries s',
    take_removed selected s = (Return (succeeded entries), s') /\
    calls s' = calls s ++ entries /\
    map fst entries = map (fun l => RemoveLink (fst l) (snd l)) selected.
Proof.
  induction selected as [ | item rest IH]; intros s.
  - exists [], s. cbn. rewrite app_nil_r. repeat split.
  - cbn [take_removed]. unfold bind.
    destruct (remove_link_step (fst item) (snd item) s)
      as (b & s1 & -> & Hc & _).
    destruct (IH s1) as (entries & s' & -> & Hc' & Hm).
    exists ((RemoveLink (fst item) (snd item), b) :: entries), s'.
    rewrite Hc', Hc, <- app_assoc. cbn [map fst app]. rewrite Hm.
    unfold succeeded, ret. cbn [filter snd].
    destruct b; cbn [map fst link_of]; rewrite <- ?surjective_pairing;
      repeat split.
Qed.


(** ** Further facts: what never escapes, what is never run *)

Lemma listing_eq {A} (turn : json -> outcome (option A)) (s : state) :
  listing turn s = (Return (listed turn (answer s dump_cmd)), after_run s dump_cmd).
Proof.
  unfold listing, try_except, bind, run, listed, dump_cmd.
  destruct (answer s ["pw-dump"%string]) as [p | e]; [ | reflexivity ].
  destruct (returncode p =? 0); [ | reflexivity ].
  destruct (stdout p) as [doc | ]; [ | reflexivity ].
  cbn. destruct (py_iter doc) as [objs | e]; [ | reflexivity ].
  cbn. destruct (collect turn objs); reflexivity.
Qed.

Lemma get_node_process_name_named (n : node_id) (s : state) :
  get_node_process_name n s
  = (Return (named n (answer s dump_cmd)), after_run s dump_cmd).
Proof.
  unfold get_node_process_name, try_except, bind, run, named, dump_cmd.
  destruct (answer s ["pw-dump"%string]) as [p | e]; [ | reflexivity ].
  destruct (returncode p =? 0); [ | reflexivity ].
  destruct (stdout p) as [doc | ]; [ | reflexivity ].
  cbn. destruct (py_iter doc) as [objs | e]; [ | reflexivity ].
  cbn. destruct (scan_name objs n); reflexivity.
Qed.




(** Whatever the external commands do, no exception leaves a method of
    the manager. *)
Theorem manager_never_raises (o i : node_id) (s : state) :
  (exists b, fst (link_exists o i s) = Return b) /\
  (exists b, fst (create_link o i s) = Return b) /\
  (exists b, fst (remove_link o i s) = Return b) /\
  fst (remove_all_links s) = Return tt.
Proof.
  repeat split.
  - rewrite link_exists_eq. eexists. reflexivity.
  - destruct (create_link_step o i s) as (b & s' & -> & _). exists b. reflexivity.
  - destruct (remove_link_step o i s) as (b & s' & -> & _). exists b. reflexivity.
  - destruct (remove_all_links_run s) as (s' & -> & _). reflexivity.
Qed.

(** Whatever the external commands do, no exception leaves the listings,
    the name lookup, the refresh of the links list, the two batch handlers
    or the close handler. *)
Theorem front_end_never_raises
        (sources targets : list node_id) (selected : list link)
        (n : node_id) (s : state) :
  (exists l, fst (get_active_applications s) = Return l) /\
  (exists l, fst (get_microphones s) = Return l) /\
  (exists name, fst (get_node_process_name n s) = Return name) /\
  (exists rows, fst (update_links_list s) = Return rows) /\
  (exists f, fst (create_links sources targets s) = Return f) /\
  (exists r, fst (remove_selected_links selected s) = Return r) /\
  fst (closeEvent s) = Return tt.
Proof.
  repeat split.
  - unfold get_active_applications. rewrite listing_eq. eexists. reflexivity.
  - unfold get_microphones. rewrite listing_eq. eexists. reflexivity.
  - rewrite get_node_process_name_named. eexists. reflexivity.
  - destruct (update_links_list_frame s) as (rows & s' & -> & _).
    exists rows. reflexivity.
  - destruct sources as [ | src sources ]; [ eexists; reflexivity | ].
    destruct targets as [ | tgt targets ]; [ eexists; reflexivity | ].
    unfold create_links, bind.
    destruct (sources_loop_spec (src :: sources) (tgt :: targets) 0%nat s)
      as (entries & s' & -> & _).
    destruct (0 <? _)%nat; eexists; reflexivity.
  - destruct selected as [ | item rest ]; [ eexists; reflexivity | ].
    unfold remove_selected_links, bind.
    destruct (take_removed_spec (item :: rest) s) as (entries & s' & -> & _).
    eexists. reflexivity.
  - unfold closeEvent. destruct (remove_all_links_run s) as (s' & -> & _).
    reflexivity.
Qed.

Lemma list_remove_first (x : link) (l1 l2 : list link) :
  ~ In x l1 -> list_remove x (l1 ++ x :: l2) = Some (l1 ++ l2).
Proof.
  induction l1 as [ | y l1 IH]; cbn [list_remove app In]; intros H.
  - rewrite link_eqb_refl. reflexivity.
  - assert (E : link_eqb y x = false)
      by (apply link_eqb_neq; intros ->; apply H; left; reflexivity).
    rewrite E, IH; [ reflexivity | ].
    intros Hin. apply H. right. exact Hin.
Qed.

(** When the deletion command does not exit 0 (a non-zero code, or the
    command does not start), [remove_link] returns false and the registry
    is as before; the one command issued is the deletion command. *)
Theorem remove_link_failure_keeps_registry (o i : node_id) (s : state) :
  exit_zero (answer s (unlink_cmd o i)) = false ->
  fst (remove_link o i s) = Return false /\
  internal_links (snd (remove_link o i s)) = internal_links s /\
  issued (snd (remove_link o i s)) = issued s ++ [unlink_cmd o i].
Proof.
  intros H. rewrite remove_link_eq. cbv zeta. rewrite H. repeat split.
Qed.

(** When the deletion command exits 0 and the registry holds the pair,
    [remove_link] returns true and erases the first entry of the pair
    only: the entries before and after it, later copies of the pair
    included, stay in their order. *)
Theorem remove_link_erases_first_entry
        (o i : node_id) (s : state) (before after : list link) :
  exit_zero (answer s (unlink_cmd o i)) = true ->
  internal_links s = before ++ (o, i) :: after ->
  ~ In (o, i) before ->
  fst (remove_link o i s) = Return true /\
  internal_links (snd (remove_link o i s)) = before ++ after.
Proof.
  intros Hz Hl Hout. rewrite remove_link_eq. cbv zeta. rewrite Hz, Hl.
  pose proof (list_remove_first _ _ after Hout) as Hr.
  unfold link in *. rewrite Hr. split; reflexivity.
Qed.

(** ** Invariants of runs *)

Lemma exec_op_effect (x : op) (s : state) :
  exists entries cmds,
    calls (snd (exec_op x s)) = calls s ++ entries /\
    issued (snd (exec_op x s)) = issued s ++ cmds /\
    forallb runs_pw_dump_or_pw_link cmds = true /\
    (forall l, In l (internal_links (snd (exec_op x s))) ->
               In l (internal_links s) \/
               In (CreateLink (fst l) (snd l), true) entries) /\
    (x <> RemoveAll ->
     (List.length (internal_links (snd (exec_op x s)))
      + List.length (filter is_remove entries)
      = List.length (internal_links s)
        + List.length (filter is_create entries))%nat).
Proof.
  destruct x as [o i | o i | ]; cbn [exec_op]; unfold bind.
  - rewrite create_link_eq. cbv zeta.
    destruct (snapshot_has (answer s dump_cmd) o i);
      [ | destruct (exit_zero (answer (after_run s dump_cmd) (link_cmd o i))) ];
      cbn [snd ret calls issued internal_links log_call set_links after_run].
    + exists [(CreateLink o i, false)], [dump_cmd].
      repeat split; try reflexivity. intros l H. left. exact H.
    + exists [(CreateLink o i, true)], [dump_cmd; link_cmd o i].
      rewrite <- app_assoc. repeat split; try reflexivity.
      * intros l H. apply in_app_or in H. destruct H as [H | [<- | []]];
          [ left; exact H | right; left; reflexivity ].
      * intros _. rewrite length_app. cbn. lia.
    + exists [(CreateLink o i, false)], [dump_cmd; link_cmd o i].
      rewrite <- app_assoc. repeat split; try reflexivity.
      intros l H. left. exact H.
  - rewrite remove_link_eq. cbv zeta.
    destruct (exit_zero (answer s (unlink_cmd o i)));
      [ destruct (list_remove (o, i) (internal_links s)) as [r | ] eqn:E | ];
      cbn [snd ret calls issued internal_links log_call set_links after_run].
    + exists [(RemoveLink o i, true)], [unlink_cmd o i].
      destruct (list_remove_present _ _ _ E) as (l1 & l2 & Hl & -> & _).
      repeat split; try reflexivity.
      * intros l H. left. rewrite Hl. apply in_or_app.
        apply in_app_or in H. destruct H as [H | H];
          [ left; exact H | right; right; exact H ].
      * intros _. rewrite Hl, !length_app. cbn. lia.
    + exists [(RemoveLink o i, false)], [unlink_cmd o i].
      repeat split; try reflexivity. intros l H. left. exact H.
    + exists [(RemoveLink o i, false)], [unlink_cmd o i].
      repeat split; try reflexivity. intros l H. left. exact H.
  - rewrite remove_all_links_eq.
    destruct (remove_loop_spec (internal_links s) s)
      as (entries & s' & -> & Hi & Hc & _).
    cbn [snd calls issued internal_links set_links].
    exists entries, (map (fun l => unlink_cmd (fst l) (snd l)) (internal_links s)).
    repeat split; try assumption.
    + apply forallb_forall. intros cmd H. apply in_map_iff in H.
      destruct H as (l & <- & _). reflexivity.
    + intros l [].
    + intros H. congruence.
Qed.

(** Along every run of create, remove and removeAll from a fresh manager,
    each pair the registry holds was the subject of a create call that
    returned true: the registry never lists a link the manager did not
    create. *)
Theorem registry_entries_were_created (ops : list op) (w : World) :
  Forall (fun l => In (CreateLink (fst l) (snd l), true)
                      (calls (snd (exec_ops ops (init w)))))
         (internal_links (snd (exec_ops ops (init w)))).
Proof.
  assert (H : forall s,
             Forall (fun l => In (CreateLink (fst l) (snd l), true) (calls s))
                    (internal_links s) ->
             Forall (fun l => In (CreateLink (fst l) (snd l), true)
                                 (calls (snd (exec_ops ops s))))
                    (internal_links (snd (exec_ops ops s)))).
  { induction ops as [ | x ops IH]; intros s Hs; [ exact Hs | ].
    rewrite exec_ops_cons. apply IH.
    destruct (exec_op_effect x s) as (entries & cmds & Hc & _ & _ & Hl & _).
    apply Forall_forall. intros l Hin. rewrite Hc. apply in_or_app.
    destruct (Hl l Hin) as [Hold | Hnew]; [ left | right; exact Hnew ].
    exact (proj1 (Forall_forall _ _) Hs l Hold). }
  apply H. constructor.
Qed.

(** Along every run of create, remove and removeAll, each command the
    manager hands to [subprocess.run] starts pw-dump or pw-link: pw-cli,
    which the start of the program requires, is never run. *)
Theorem manager_runs_only_pw_dump_and_pw_link (ops : list op) (s : state) :
  exists cmds,
    issued (snd (exec_ops ops s)) = issued s ++ cmds /\
    forallb runs_pw_dump_or_pw_link cmds = true.
Proof.
  revert s. induction ops as [ | x ops IH]; intros s.
  - exists []. rewrite app_nil_r. split; reflexivity.
  - rewrite exec_ops_cons.
    destruct (exec_op_effect x s) as (entries & c1 & _ & Hi & Hok & _).
    destruct (IH (snd (exec_op x s))) as (c2 & Hi2 & Hok2).
    exists (c1 ++ c2). rewrite Hi2, Hi, <- app_assoc. split; [ reflexivity | ].
    rewrite forallb_app, Hok, Hok2. reflexivity.
Qed.

(** Along every run of create and remove (no removeAll) from a fresh
    manager, the size of the registry is the number of create calls that
    returned true minus the number of remove calls that returned true. *)
Theorem registry_size_balance (ops : list op) (w : World) :
  has_remove_all ops = false ->
  (List.length (internal_links (snd (exec_ops ops (init w))))
   + List.length (filter is_remove (calls (snd (exec_ops ops (init w)))))
   = List.length (filter is_create (calls (snd (exec_ops ops (init w))))))%nat.
Proof.
  assert (H : forall s,
             has_remove_all ops = false ->
             (List.length (internal_links s)
              + List.length (filter is_remove (calls s))
              = List.length (filter is_create (calls s)))%nat ->
             (List.length (internal_links (snd (exec_ops ops s)))
              + List.length (filter is_remove (calls (snd (exec_ops ops s))))
              = List.length (filter is_create (calls (snd (exec_ops ops s)))))%nat).
  { induction ops as [ | x ops IH]; intros s Hno Hs; [ exact Hs | ].
    rewrite exec_ops_cons. cbn [has_remove_all existsb] in Hno.
    apply orb_false_iff in Hno. destruct Hno as [Hx Hno].
    apply IH; [ exact Hno | ].
    destruct (exec_op_effect x s) as (entries & cmds & Hc & _ & _ & _ & Hb).
    assert (Hne : x <> RemoveAll) by (intros ->; discriminate).
    specialize (Hb Hne). rewrite Hc, !filter_app, !length_app. lia. }
  intros Hno. apply H; [ exact Hno | reflexivity ].
Qed.

(** ** The queries of the front end *)

(** When pw-dump gives no document (it does not start, exits non-zero, or
    prints what [json.loads] rejects), both listings are empty and the
    name lookup returns the placeholder "Unknown Node (n)". *)
Theorem failed_query_defaults (n : node_id) (s : state) :
  no_document (answer s dump_cmd) = true ->
  fst (get_active_applications s) = Return [] /\
  fst (get_microphones s) = Return [] /\
  fst (get_node_process_name n s) = Return (unknown_node n).
Proof.
  intros H. unfold get_active_applications, get_microphones.
  rewrite !listing_eq, get_node_process_name_named. cbn [fst].
  unfold listed, named.
  destruct (answer s dump_cmd) as [p | e]; [ | repeat split ].
  cbn [no_document] in H.
  destruct (returncode p =? 0); [ | repeat split ].
  destruct (stdout p); [ discriminate | repeat split ].
Qed.

Lemma links_rows_spec (ls : list link) :
  forall s, exists rows s',
    links_rows ls s = (Return rows, s') /\
    map snd rows = ls /\
    issued s' = issued s ++ repeat dump_cmd (2 * List.length ls) /\
    internal_links s' = internal_links s.
Proof.
  induction ls as [ | l rest IH]; intros s.
  - exists [], s. cbn. rewrite app_nil_r. repeat split.
  - cbn [links_rows]. unfold bind.
    rewrite !get_node_process_name_named.
    destruct (IH (after_run (after_run s dump_cmd) dump_cmd))
      as (rows & s' & -> & Hm & Hi & Hl).
    eexists; eexists. split; [ reflexivity | ].
    cbn [map snd]. rewrite Hm, Hi, Hl. cbn [after_run issued internal_links].
    replace (2 * List.length (l :: rest))%nat
      with (S (S (2 * List.length rest)))%nat by (cbn [List.length]; lia).
    cbn [repeat]. rewrite <- !app_assoc. repeat split.
Qed.

(** update_links_list shows one row for each registry entry, in registry
    order, duplicates included; it runs pw-dump twice for each entry and
    nothing else, and leaves the registry as it is. *)
Theorem update_links_list_rows (s : state) :
  exists rows,
    fst (update_links_list s) = Return rows /\
    map snd rows = internal_links s /\
    issued (snd (update_links_list s))
      = issued s ++ repeat dump_cmd (2 * List.length (internal_links s)) /\
    internal_links (snd (update_links_list s)) = internal_links s.
Proof.
  unfold update_links_list.
  destruct (links_rows_spec (internal_links s) s)
    as (rows & s' & -> & Hm & Hi & Hl).
  exists rows. repeat split; assumption.
Qed.



(** If [which] itself cannot be started for the first probe, the
    exception is not caught: the start of the program ends with it, and no
    further command is run. *)
Theorem main_fails_when_which_is_missing (s : state) (e : exn) :
  answer s (which_cmd "pw-cli") = RunRaises e ->
  fst (main s) = Raise e /\
  issued (snd (main s)) = issued s ++ [which_cmd "pw-cli"].
Proof.
  intros H. unfold main, bind. cbn [probe]. unfold bind, run.
  unfold which_cmd in H. rewrite H. split; reflexivity.
Qed.

(** ** What [link_exists] finds in a document *)

Lemma scan_links_cons (obj : json) (rest : list json) (o i : node_id) :
  scan_links (obj :: rest) o i =
  match scan_links [obj] o i with
  | Return true => Return true
  | Return false => scan_links rest o i
  | Raise e => Raise e
  end.
Proof.
  cbn [scan_links].
  destruct (py_get obj "type" JNull) as [ty | ]; [ | reflexivity ].
  cbn [obind]. destruct (py_eq_str ty "PipeWire:Interface:Link"); [ | reflexivity ].
  destruct (py_get obj "info" (JObj [])) as [info | ]; [ | reflexivity ].
  cbn [obind].
  destruct (py_get info "output-node-id" JNull) as [x | ]; [ | reflexivity ].
  cbn [obind].
  destruct (py_get info "input-node-id" JNull) as [y | ]; [ | reflexivity ].
  cbn [obind]. destruct (py_eq_int x o && py_eq_int y i); reflexivity.
Qed.



(** An entry that is not a JSON object stops the scan: when the entries
    before it hold no match, [link_exists] returns false whatever links
    the document lists after it. *)
Theorem malformed_entry_hides_links
        (pre post : list json) (bad : json) (e : exn) (o i : node_id) (s : state) :
  answer s dump_cmd = exits 0 (Some (JArr (pre ++ bad :: post))) ->
  scan_links pre o i = Return false ->
  py_get bad "type" JNull = Raise e ->
  fst (link_exists o i s) = Return false.
Proof.
  intros H Hpre Hbad. rewrite link_exists_eq. cbn [fst].
  unfold snapshot_has, scanned. rewrite H. cbn.
  assert (E : scan_links (pre ++ bad :: post) o i = Raise e).
  { clear H. induction pre as [ | x pre IH].
    - cbn [app scan_links]. rewrite Hbad. reflexivity.
    - cbn [app]. rewrite scan_links_cons in Hpre |- *.
      destruct (scan_links [x] o i) as [[ | ] | e']; try discriminate.
      exact (IH Hpre). }
  rewrite E. reflexivity.
Qed.

Lemma scan_links_link_objects (ls : list link) (o i : node_id) :
  scan_links (map link_object ls) o i
  = Return (existsb (fun l => link_eqb l (o, i)) ls).
Proof.
  induction ls as [ | l ls IH]; [ reflexivity | ].
  cbn [map]. rewrite scan_links_cons, IH. cbn [existsb].
  unfold link_object, link_eqb. cbn.
  destruct ((fst l =? o) && (snd l =? i)); reflexivity.
Qed.

(** On a document listing exactly the links [ls], [link_exists] answers
    whether the pair is among them, output and input in that order. *)
Theorem link_exists_on_link_objects (ls : list link) (o i : node_id) (s : state) :
  answer s dump_cmd = exits 0 (Some (JArr (map link_object ls))) ->
  fst (link_exists o i s) = Return (existsb (fun l => link_eqb l (o, i)) ls).
Proof.
  intros H. rewrite link_exists_eq. cbn [fst].
  unfold snapshot_has, scanned. rewrite H. cbn.
  rewrite scan_links_link_objects. reflexivity.
Qed.

(** ** What the listings and the name lookup make of a document *)

Lemma collect_returns {A} (turn : json -> outcome (option A)) (objs : list json) :
  (forall obj, In obj objs -> exists r, turn obj = Return r) ->
  collect turn objs = Return (flat_map (fun obj => contribution (turn obj)) objs).
Proof.
  induction objs as [ | x objs IH]; intros H; [ reflexivity | ].
  cbn [collect flat_map].
  destruct (H x (or_introl eq_refl)) as (r & ->).
  rewrite IH by (intros obj Hin; apply H; right; exact Hin).
  cbn [obind contribution]. destruct r; reflexivity.
Qed.

Lemma collect_raises {A} (turn : json -> outcome (option A))
      (objs : list json) (obj : json) (e : exn) :
  In obj objs -> turn obj = Raise e -> exists e', collect turn objs = Raise e'.
Proof.
  induction objs as [ | x objs IH]; intros Hin Hr; [ destruct Hin | ].
  cbn [collect]. destruct Hin as [-> | Hin].
  - rewrite Hr. eexists. reflexivity.
  - destruct (turn x) as [r | e0]; [ | eexists; reflexivity ].
    destruct (IH Hin Hr) as (e' & ->). eexists. reflexivity.
Qed.

(** The two listing loops raise on the same entries. *)
Lemma microphone_of_returns_iff (obj : json) :
  (exists r, application_of obj = Return r) <->
  (exists r, microphone_of obj = Return r).
Proof.
  unfold application_of, microphone_of, application_name, microphone_name.
  destruct obj as [ | | | | | oitems ];
    try (split; intros (r & H); discriminate H).
  cbn [py_get obind].
  destruct (py_eq_str _ "PipeWire:Interface:Node");
    [ | split; intros _; eexists; reflexivity ].
  destruct (match dict_get oitems "info" with Some v => v | None => JObj [] end)
    as [ | | | | | iitems ];
    try (split; intros (r & H); discriminate H).
  cbn [py_get obind].
  destruct (match dict_get iitems "props" with Some v => v | None => JObj [] end)
    as [ | | | | | pitems ];
    try (split; intros (r & H); discriminate H).
  cbn [py_get obind].
  destruct (match dict_get pitems "media.class" with Some v => v | None => JStr "" end)
    as [ | | | mc | xs | kvs ]; cbn [py_in obind];
    try (split; intros (r & H); discriminate H).
  - destruct (is_substring "Stream/Output/Audio" mc),
             (is_substring "Audio/Source" mc);
      split; intros _; eexists; reflexivity.
  - destruct (existsb _ xs), (existsb _ xs);
      split; intros _; eexists; reflexivity.
  - destruct (existsb _ kvs), (existsb _ kvs);
      split; intros _; eexists; reflexivity.
Qed.

(** When no entry of the document makes the loop raise, each listing
    holds, in document order, the entries of the nodes its media class
    test accepts. *)
Theorem listings_keep_document_order (objs : list json) (s : state) :
  answer s dump_cmd = exits 0 (Some (JArr objs)) ->
  (forall obj, In obj objs -> exists r, application_of obj = Return r) ->
  fst (get_active_applications s)
    = Return (flat_map (fun obj => contribution (application_of obj)) objs) /\
  fst (get_microphones s)
    = Return (flat_map (fun obj => contribution (microphone_of obj)) objs).
Proof.
  intros H Hok. unfold get_active_applications, get_microphones.
  rewrite !listing_eq. cbn [fst]. unfold listed. rewrite H. cbn.
  rewrite (collect_returns application_of objs Hok).
  rewrite (collect_returns microphone_of objs)
    by (intros obj Hin; apply microphone_of_returns_iff; exact (Hok obj Hin)).
  split; reflexivity.
Qed.

(** One entry on which the loop raises, anywhere in the document, empties
    both listings: the entries collected before it are dropped. *)
Theorem malformed_entry_empties_listings
        (objs : list json) (obj : json) (e : exn) (s : state) :
  answer s dump_cmd = exits 0 (Some (JArr objs)) ->
  In obj objs ->
  application_of obj = Raise e ->
  fst (get_active_applications s) = Return [] /\
  fst (get_microphones s) = Return [].
Proof.
  intros H Hin Hr. unfold get_active_applications, get_microphones.
  rewrite !listing_eq. cbn [fst]. unfold listed. rewrite H. cbn.
  destruct (collect_raises application_of objs obj e Hin Hr) as (e1 & ->).
  assert (Hm : exists e2, microphone_of obj = Raise e2).
  { destruct (microphone_of obj) as [r | e2] eqn:E; [ | eexists; reflexivity ].
    destruct (proj2 (microphone_of_returns_iff obj) (ex_intro _ r E)) as (r' & Hr').
    congruence. }
  destruct Hm as (e2 & Hm).
  destruct (collect_raises microphone_of objs obj e2 Hin Hm) as (e3 & ->).
  split; reflexivity.
Qed.

Lemma scan_name_skips (pre rest : list json) (n : node_id) :
  (forall obj, In obj pre ->
               exists id, py_get obj "id" JNull = Return id /\
                          py_eq_int id n = false) ->
  scan_name (pre ++ rest) n = scan_name rest n.
Proof.
  induction pre as [ | x pre IH]; intros H; [ reflexivity | ].
  cbn [app scan_name].
  destruct (H x (or_introl eq_refl)) as (id & Hg & He).
  rewrite Hg. cbn [obind]. rewrite He.
  apply IH. intros obj Hin. apply H. right. exact Hin.
Qed.

(** When no entry of the document carries the id, the name lookup falls
    off its loop and returns None, not the placeholder. *)
Theorem node_process_name_without_match (objs : list json) (n : node_id) (s : state) :
  answer s dump_cmd = exits 0 (Some (JArr objs)) ->
  (forall obj, In obj objs ->
               exists id, py_get obj "id" JNull = Return id /\
                          py_eq_int id n = false) ->
  fst (get_node_process_name n s) = Return JNull.
Proof.
  intros H Hno. rewrite get_node_process_name_named. cbn [fst].
  unfold named. rewrite H. cbn.
  rewrite <- (app_nil_r objs), (scan_name_skips objs [] n Hno). reflexivity.
Qed.

(** The name lookup answers from the first entry that carries the id,
    whatever its type: application.name, else node.name, else the
    placeholder "Unknown Node (n)". *)
Theorem node_process_name_first_match
        (pre post : list json) (obj id : json) (items : list (string * json))
        (n : node_id) (s : state) :
  answer s dump_cmd = exits 0 (Some (JArr (pre ++ obj :: post))) ->
  (forall x, In x pre ->
             exists id', py_get x "id" JNull = Return id' /\
                         py_eq_int id' n = false) ->
  py_get obj "id" JNull = Return id ->
  py_eq_int id n = true ->
  props_of obj = Return (JObj items) ->
  fst (get_node_process_name n s)
    = Return (first_of items ["application.name"; "node.name"]%string
                       ("Unknown Node (" ++ str n ++ ")")).
Proof.
  intros H Hpre Hid Heq Hprops. rewrite get_node_process_name_named. cbn [fst].
  unfold named. rewrite H. cbn [exits returncode stdout Z.eqb py_iter obind].
  rewrite (scan_name_skips pre (obj :: post) n Hpre).
  cbn [scan_name]. rewrite Hid. cbn [obind]. rewrite Heq.
  unfold props_of in Hprops.
  destruct (py_get obj "info" (JObj [])) as [info | ]; [ | discriminate ].
  cbn [obind] in Hprops |- *. rewrite Hprops. reflexivity.
Qed.

End Program.

Arguments Build_state {World} world issued calls internal_links.
Arguments world {World} s.
Arguments issued {World} s.
Arguments calls {World} s.
Arguments internal_links {World} s.
Arguments init {World} w.
Arguments answer {World} subprocess_run s cmd.
Arguments after_run {World} subprocess_run s cmd.
Arguments link_exists {World} subprocess_run output_node_id input_node_id _.
Arguments create_link {World} subprocess_run output_node_id input_node_id _.
Arguments remove_link {World} subprocess_run output_node_id input_node_id _.
Arguments remove_all_links {World} subprocess_run _.
Arguments exec_ops {World} subprocess_run ops _.
Arguments creates_fresh {World} subprocess_run ops s.
Arguments create_links {World} subprocess_run selected_sources selected_targets _.
Arguments remove_selected_links {World} subprocess_run selected_items _.
Arguments get_active_applications {World} subprocess_run _.
Arguments get_microphones {World} subprocess_run _.

(** ** The scenario of the specification, on a scripted environment *)

Example scenario_create_create_remove :
  let s1 := snd (create_link scripted_run 5 10
                   (init [no_links; done; one_link 5 10; done])) in
  let s2 := snd (create_link scripted_run 5 10 s1) in
  let s3 := snd (remove_link scripted_run 5 10 s2) in
  internal_links s1 = [(5, 10)] /\
  internal_links s2 = [(5, 10)] /\
  internal_links s3 = [] /\
  calls s3 = [(CreateLink 5 10, true); (CreateLink 5 10, false);
              (RemoveLink 5 10, true)] /\
  issued s3 = [["pw-dump"]; ["pw-link"; "5"; "10"]; ["pw-dump"];
               ["pw-link"; "-d"; "5"; "10"]]%string.
Proof. repeat split. Qed.

Example listing_of_samples :
  fst (get_active_applications scripted_run
         (init [exits 0 (Some (JArr [sample_microphone; sample_application]))]))
    = Return [(JInt 57, Titled (JStr "Firefox") (JStr "AudioStream"))] /\
  fst (get_microphones scripted_run
         (init [exits 0 (Some (JArr [sample_microphone; sample_application]))]))
    = Return [(JInt 42, JStr "alsa_input.pci")].
Proof. split; reflexivity. Qed.

(** ** Where the code and the specification part *)

(** C1: the deletion command exits 0 for a pair the registry does not hold
    (here: the empty registry of a fresh manager); [list.remove] raises
    ValueError, the handler swallows it, and [remove_link] returns false. *)
Theorem remove_link_absent_pair_returns_false :
  exit_zero (answer scripted_run (init [done]) (unlink_cmd 5 10)) = true /\
  remove_link scripted_run 5 10 (init [done])
    = (Return false,
       {| world := []; issued := [unlink_cmd 5 10];
          calls := [(RemoveLink 5 10, false)]; internal_links := [] |}).
Proof. split; reflexivity. Qed.

(** C2, as stated, fails: a link created by the manager and taken down by
    another tool is created again; every command exits 0, both creates
    return true, and the registry holds the pair twice. *)
Lemma registry_holds_pair_twice :
  calls (snd (exec_ops scripted_run [Create 5 10; Create 5 10]
                (init [no_links; done; no_links; done])))
    = [(CreateLink 5 10, true); (CreateLink 5 10, true)] /\
  internal_links (snd (exec_ops scripted_run [Create 5 10; Create 5 10]
                         (init [no_links; done; no_links; done])))
    = [(5, 10); (5, 10)] /\
  ~ NoDup (internal_links (snd (exec_ops scripted_run [Create 5 10; Create 5 10]
                                  (init [no_links; done; no_links; done])))).
Proof.
  split; [ reflexivity | ]. split; [ reflexivity | ].
  intros H. change (NoDup [(5, 10); (5, 10)]) in H.
  apply NoDup_cons_iff in H. destruct H as [H _]. apply H. left. reflexivity.
Qed.

Lemma registry_unique_witness :
  NoDup (internal_links
           (snd (exec_ops scripted_run [Create 5 10; Create 5 10; Remove 5 10]
                   (init [no_links; done; one_link 5 10; done])))).
Proof.
  refine (proj1 (registry_unique_when_creates_fresh
                   script scripted_run [Create 5 10; Create 5 10; Remove 5 10]
                   (init [no_links; done; one_link 5 10; done]) eq_refl _) 3%nat).
  cbn. repeat split.
  - intros _ [].
  - intros H. discriminate H.
Defined.


(** C8, as stated, fails: the registry still holds (5, 10) from an earlier
    create while the snapshot shows no such link; create then remove return
    true and true, and the registry holds (5, 10) afterwards. *)
Lemma round_trip_leaves_stale_entry :
  calls (snd (exec_ops scripted_run [Create 5 10; Create 5 10; Remove 5 10]
                (init [no_links; done; no_links; done; done])))
    = [(CreateLink 5 10, true); (CreateLink 5 10, true);
       (RemoveLink 5 10, true)] /\
  In (5, 10)
     (internal_links
        (snd (exec_ops scripted_run [Create 5 10; Create 5 10; Remove 5 10]
                (init [no_links; done; no_links; done; done])))).
Proof. split; [ reflexivity | left; reflexivity ]. Qed.

Lemma create_then_remove_witness :
  fst (create_link scripted_run 5 10 (init [no_links; done; done])) = Return true /\
  fst (remove_link scripted_run 5 10
         (snd (create_link scripted_run 5 10 (init [no_links; done; done]))))
    = Return true /\
  internal_links
    (snd (remove_link scripted_run 5 10
            (snd (create_link scripted_run 5 10 (init [no_links; done; done])))))
    = [] /\
  ~ In (5, 10)
    (internal_links
       (snd (remove_link scripted_run 5 10
               (snd (create_link scripted_run 5 10 (init [no_links; done; done])))))).
Proof.
  apply (create_then_remove script scripted_run 5 10 (init [no_links; done; done])).
  - intros [].
  - reflexivity.
  - reflexivity.
  - reflexivity.
Defined.



(** ** Display names *)

Lemma py_get_dict (d : json) (key : string) (default v : json) :
  py_get d key default = Return v ->
  exists items,
    d = JObj items /\
    v = match dict_get items key with Some x => x | None => default end.
Proof.
  destruct d; cbn [py_get]; try discriminate.
  intros H. injection H as <-. eexists. split; reflexivity.
Qed.

Lemma application_name_label (items : list (string * json)) :
  application_name (JObj items) = Return (application_label items).
Proof.
  unfold application_name, application_label, first_of. cbn.
  destruct (dict_get items "media.name") as [title | ]; reflexivity.
Qed.

Lemma microphone_name_label (items : list (string * json)) :
  microphone_name (JObj items) = Return (microphone_label items).
Proof. reflexivity. Qed.

(** C9, as stated, fails for capture devices: the props of the sample carry
    an application name, which the rule of the specification would show,
    and get_microphones shows the node name. *)
Lemma microphone_name_is_node_name :
  microphone_of sample_microphone = Return (Some (JInt 42, JStr "alsa_input.pci")) /\
  props_of sample_microphone = Return (JObj microphone_props) /\
  spec_display_name "Unknown Microphone" microphone_props
    = Plain (JStr "PipeWire").
Proof. repeat split. Qed.

(** C9, amended: an entry listed by get_active_applications is named by
    application.name, else node.name, else "Unknown App", with media.name
    appended when it is present and not empty; an entry listed by
    get_microphones is named by node.name, else "Unknown Microphone". *)
Theorem display_names (obj id : json) :
  (forall name,
      application_of obj = Return (Some (id, name)) ->
      exists items,
        props_of obj = Return (JObj items) /\ name = application_label items) /\
  (forall name,
      microphone_of obj = Return (Some (id, name)) ->
      exists items,
        props_of obj = Return (JObj items) /\ name = microphone_label items).
Proof.
  split; intros name H.
  - unfold application_of in H. unfold props_of.
    destruct (py_get obj "type" JNull) as [ty | ]; [ | discriminate ].
    cbn [obind] in H.
    destruct (py_eq_str ty "PipeWire:Interface:Node"); [ | discriminate ].
    destruct (py_get obj "info" (JObj [])) as [info | ]; [ | discriminate ].
    cbn [obind] in H |- *.
    destruct (py_get info "props" (JObj [])) as [props | ]; [ | discriminate ].
    cbn [obind] in H.
    destruct (py_get props "media.class" (JStr "")) as [mc | ] eqn:E;
      [ | discriminate ].
    destruct (py_get_dict _ _ _ _ E) as (items & -> & _).
    cbn [obind] in H.
    destruct (py_in "Stream/Output/Audio" mc) as [[ | ] | ]; try discriminate.
    cbn [obind] in H.
    destruct (py_get obj "id" JNull) as [i | ]; [ | discriminate ].
    cbn [obind] in H. rewrite application_name_label in H. cbn [obind] in H.
    injection H as _ <-. exists items. split; reflexivity.
  - unfold microphone_of in H. unfold props_of.
    destruct (py_get obj "type" JNull) as [ty | ]; [ | discriminate ].
    cbn [obind] in H.
    destruct (py_eq_str ty "PipeWire:Interface:Node"); [ | discriminate ].
    destruct (py_get obj "info" (JObj [])) as [info | ]; [ | discriminate ].
    cbn [obind] in H |- *.
    destruct (py_get info "props" (JObj [])) as [props | ]; [ | discriminate ].
    cbn [obind] in H.
    destruct (py_get props "media.class" (JStr "")) as [mc | ] eqn:E;
      [ | discriminate ].
    destruct (py_get_dict _ _ _ _ E) as (items & -> & _).
    cbn [obind] in H.
    destruct (py_in "Audio/Source" mc) as [[ | ] | ]; try discriminate.
    cbn [obind] in H.
    destruct (py_get obj "id" JNull) as [i | ]; [ | discriminate ].
    cbn [obind] in H. rewrite microphone_name_label in H. cbn [obind] in H.
    injection H as _ <-. exists items. split; reflexivity.
Qed.

Lemma display_names_witness :
  (exists items,
      props_of sample_application = Return (JObj items) /\
      Titled (JStr "Firefox") (JStr "AudioStream") = application_label items) /\
  (exists items,
      props_of sample_microphone = Return (JObj items) /\
      JStr "alsa_input.pci" = microphone_label items).
Proof.
  split.
  - apply (proj1 (display_names sample_application (JInt 57))). reflexivity.
  - apply (proj2 (display_names sample_microphone (JInt 42))). reflexivity.
Defined.

Arguments get_node_process_name {World} subprocess_run n _.
Arguments update_links_list {World} subprocess_run _.
Arguments main {World} subprocess_run setText_takes _.

(** ** The media class test *)

Lemma prefix_iff (a s : string) :
  String.prefix a s = true <-> exists post, s = (a ++ post)%string.
Proof.
  revert s. induction a as [ | c a IH]; intros s.
  - destruct s; cbn; (split; [ intros _; eexists; reflexivity | reflexivity ]).
  - destruct s as [ | d s ]; cbn [String.prefix String.append].
    + split; [ discriminate | intros (post & H); discriminate ].
    + destruct (Ascii.ascii_dec c d) as [-> | N].
      * rewrite IH. split; intros (post & H); exists post; congruence.
      * split; [ discriminate | ].
        intros (post & H). injection H as H _. congruence.
Qed.

Lemma is_substring_iff (needle s : string) :
  is_substring needle s = true <->
  exists pre post, s = (pre ++ needle ++ post)%string.
Proof.
  induction s as [ | c s IH]; cbn [is_substring]; rewrite orb_true_iff, prefix_iff.
  - split.
    + intros [(post & H) | H]; [ | discriminate ].
      exists ""%string, post. exact H.
    + intros (pre & post & H). left.
      destruct pre; [ exists post; exact H | discriminate ].
  - rewrite IH. split.
    + intros [(post & H) | (pre & post & H)].
      * exists ""%string, post. exact H.
      * exists (String c pre), post. cbn [String.append]. congruence.
    + intros (pre & post & H). destruct pre as [ | d pre ].
      * left. exists post. exact H.
      * right. cbn [String.append] in H. injection H as _ H.
        exists pre, post. exact H.
Qed.

(** A node whose media class is a str is listed as an application exactly
    when the class contains "Stream/Output/Audio", and as a microphone
    exactly when it contains "Audio/Source", anywhere in the text; a class
    that contains both puts the node in both lists. *)
Theorem classification_by_substring
        (obj : json) (items : list (string * json)) (mc : string) :
  py_get obj "type" JNull = Return (JStr "PipeWire:Interface:Node") ->
  props_of obj = Return (JObj items) ->
  dict_get items "media.class" = Some (JStr mc) ->
  ((exists e, application_of obj = Return (Some e)) <->
   (exists pre post, mc = (pre ++ "Stream/Output/Audio" ++ post)%string)) /\
  ((exists e, microphone_of obj = Return (Some e)) <->
   (exists pre post, mc = (pre ++ "Audio/Source" ++ post)%string)).
Proof.
  intros Hty Hprops Hmc.
  rewrite <- !is_substring_iff.
  unfold application_of, microphone_of, application_name, microphone_name.
  rewrite Hty. cbn [obind py_eq_str]. unfold props_of in Hprops.
  destruct obj as [ | | | | | oitems ]; try discriminate.
  destruct (py_get (JObj oitems) "info" (JObj [])) as [info | ]; [ | discriminate ].
  cbn [obind] in Hprops |- *. rewrite Hprops. cbn [obind py_get].
  rewrite Hmc. cbn [py_in obind].
  change (String.eqb "PipeWire:Interface:Node" "PipeWire:Interface:Node") with true.
  cbv iota.
  split.
  - destruct (is_substring "Stream/Output/Audio" mc).
    + split; [ reflexivity | intros _; eexists; reflexivity ].
    + split; [ intros (e & H); discriminate | discriminate ].
  - destruct (is_substring "Audio/Source" mc).
    + split; [ reflexivity | intros _; eexists; reflexivity ].
    + split; [ intros (e & H); discriminate | discriminate ].
Qed.

(** A node whose props carry no media.class is listed neither as an
    application nor as a microphone. *)
Theorem node_without_media_class_is_not_listed
        (obj : json) (items : list (string * json)) :
  props_of obj = Return (JObj items) ->
  dict_get items "media.class" = None ->
  application_of obj = Return None /\ microphone_of obj = Return None.
Proof.
  intros Hprops Hmc. unfold props_of in Hprops.
  unfold application_of, microphone_of.
  destruct obj as [ | | | | | oitems ]; try discriminate.
  cbn [py_get obind] in *.
  destruct (py_eq_str _ "PipeWire:Interface:Node"); [ | split; reflexivity ].
  destruct (match dict_get oitems "info" with Some v => v | None => JObj [] end)
    as [ | | | | | iitems ]; try discriminate.
  cbn [py_get obind] in *. injection Hprops as ->.
  cbn [obind py_get]. rewrite Hmc. split; reflexivity.
Qed.

(** ** The further facts on scripted environments *)

Lemma remove_link_failure_witness :
  fst (remove_link scripted_run 5 10 (init [exits 1 None])) = Return false /\
  internal_links (snd (remove_link scripted_run 5 10 (init [exits 1 None]))) = [] /\
  issued (snd (remove_link scripted_run 5 10 (init [exits 1 None])))
    = [] ++ [unlink_cmd 5 10].
Proof.
  apply (remove_link_failure_keeps_registry script scripted_run 5 10
           (init [exits 1 None])).
  reflexivity.
Defined.

Lemma remove_link_first_entry_witness :
  fst (remove_link scripted_run 5 10
         (Build_state [done] [] [] [(1, 2); (5, 10); (3, 4); (5, 10)]))
    = Return true /\
  internal_links
    (snd (remove_link scripted_run 5 10
            (Build_state [done] [] [] [(1, 2); (5, 10); (3, 4); (5, 10)])))
    = [(1, 2)] ++ [(3, 4); (5, 10)].
Proof.
  apply (remove_link_erases_first_entry script scripted_run 5 10
           (Build_state [done] [] [] [(1, 2); (5, 10); (3, 4); (5, 10)])
           [(1, 2)] [(3, 4); (5, 10)]).
  - reflexivity.
  - reflexivity.
  - intros [H | []]. discriminate H.
Defined.

Lemma registry_size_balance_witness :
  Nat.add
    (List.length
       (internal_links
          (snd (exec_ops scripted_run [Create 5 10; Create 7 3; Remove 5 10]
                  (init [no_links; done; no_links; done; done])))))
    (List.length
       (filter is_remove
          (calls (snd (exec_ops scripted_run [Create 5 10; Create 7 3; Remove 5 10]
                         (init [no_links; done; no_links; done; done]))))))
  = List.length
      (filter is_create
         (calls (snd (exec_ops scripted_run [Create 5 10; Create 7 3; Remove 5 10]
                        (init [no_links; done; no_links; done; done]))))).
Proof.
  apply (registry_size_balance script scripted_run
           [Create 5 10; Create 7 3; Remove 5 10]
           [no_links; done; no_links; done; done]).
  reflexivity.
Defined.

Lemma failed_query_witness :
  fst (get_active_applications scripted_run (init [exits 1 None])) = Return [] /\
  fst (get_microphones scripted_run (init [exits 1 None])) = Return [] /\
  fst (get_node_process_name scripted_run 5 (init [exits 1 None]))
    = Return (unknown_node 5).
Proof.
  apply (failed_query_defaults script scripted_run 5 (init [exits 1 None])).
  reflexivity.
Defined.

Lemma main_without_which_witness :
  fst (main scripted_run (fun _ => false) (init [])) = Raise OSError /\
  issued (snd (main scripted_run (fun _ => false) (init [])))
    = [] ++ [which_cmd "pw-cli"].
Proof.
  apply (main_fails_when_which_is_missing script scripted_run (fun _ => false)
           (init []) OSError).
  reflexivity.
Defined.


Lemma malformed_entry_hides_links_witness :
  fst (link_exists scripted_run 5 10
         (init [exits 0 (Some (JArr ([] ++ JNull :: [link_object (5, 10)])))]))
    = Return false.
Proof.
  apply (malformed_entry_hides_links script scripted_run
           [] [link_object (5, 10)] JNull AttributeError 5 10
           (init [exits 0 (Some (JArr ([] ++ JNull :: [link_object (5, 10)])))]));
    reflexivity.
Defined.

Lemma link_exists_on_link_objects_witness :
  fst (link_exists scripted_run 5 10
         (init [exits 0 (Some (JArr (map link_object [(10, 5); (5, 10)])))]))
    = Return (existsb (fun l => link_eqb l (5, 10)) [(10, 5); (5, 10)]).
Proof.
  apply (link_exists_on_link_objects script scripted_run [(10, 5); (5, 10)] 5 10
           (init [exits 0 (Some (JArr (map link_object [(10, 5); (5, 10)])))])).
  reflexivity.
Defined.

Lemma listings_order_witness :
  fst (get_active_applications scripted_run
         (init [exits 0 (Some (JArr [sample_microphone; sample_application;
                                     bare_node]))]))
    = Return (flat_map (fun obj => contribution (application_of obj))
                       [sample_microphone; sample_application; bare_node]) /\
  fst (get_microphones scripted_run
         (init [exits 0 (Some (JArr [sample_microphone; sample_application;
                                     bare_node]))]))
    = Return (flat_map (fun obj => contribution (microphone_of obj))
                       [sample_microphone; sample_application; bare_node]).
Proof.
  apply (listings_keep_document_order script scripted_run
           [sample_microphone; sample_application; bare_node]
           (init [exits 0 (Some (JArr [sample_microphone; sample_application;
                                       bare_node]))])).
  - reflexivity.
  - intros obj [<- | [<- | [<- | []]]]; eexists; reflexivity.
Defined.

Lemma malformed_entry_empties_listings_witness :
  fst (get_active_applications scripted_run
         (init [exits 0 (Some (JArr [sample_application; null_class_node]))]))
    = Return [] /\
  fst (get_microphones scripted_run
         (init [exits 0 (Some (JArr [sample_application; null_class_node]))]))
    = Return [].
Proof.
  apply (malformed_entry_empties_listings script scripted_run
           [sample_application; null_class_node] null_class_node TypeError
           (init [exits 0 (Some (JArr [sample_application; null_class_node]))])).
  - reflexivity.
  - right. left. reflexivity.
  - reflexivity.
Defined.

Lemma node_process_name_without_match_witness :
  fst (get_node_process_name scripted_run 99
         (init [exits 0 (Some (JArr [sample_application]))]))
    = Return JNull.
Proof.
  apply (node_process_name_without_match script scripted_run
           [sample_application] 99
           (init [exits 0 (Some (JArr [sample_application]))])).
  - reflexivity.
  - intros obj [<- | []]. exists (JInt 57). split; reflexivity.
Defined.

Lemma node_process_name_first_match_witness :
  fst (get_node_process_name scripted_run 57
         (init [exits 0 (Some (JArr ([sample_microphone]
                                     ++ sample_application :: [])))]))
    = Return (first_of application_props ["application.name"; "node.name"]%string
                       ("Unknown Node (" ++ str 57 ++ ")")).
Proof.
  apply (node_process_name_first_match script scripted_run
           [sample_microphone] [] sample_application (JInt 57) application_props 57
           (init [exits 0 (Some (JArr ([sample_microphone]
                                       ++ sample_application :: [])))])).
  - reflexivity.
  - intros x [<- | []]. exists (JInt 42). split; reflexivity.
  - reflexivity.
  - reflexivity.
  - reflexivity.
Defined.

Lemma classification_witness :
  ((exists e, application_of sample_application = Return (Some e)) <->
   (exists pre post,
       "Stream/Output/Audio"%string = (pre ++ "Stream/Output/Audio" ++ post)%string)) /\
  ((exists e, microphone_of sample_application = Return (Some e)) <->
   (exists pre post,
       "Stream/Output/Audio"%string = (pre ++ "Audio/Source" ++ post)%string)).
Proof.
  apply (classification_by_substring sample_application application_props
           "Stream/Output/Audio"); reflexivity.
Defined.

Lemma node_without_media_class_witness :
  application_of bare_node = Return None /\ microphone_of bare_node = Return None.
Proof.
  apply (node_without_media_class_is_not_listed bare_node
           [("node.name", JStr "dummy")]%string); reflexivity.
Defined.

(** A source application whose application.name is a number: when PyQt
    refuses the number as a text, the window's constructor ends with
    TypeError after the first pw-dump. *)
Example main_with_a_numeric_application_name :
  main scripted_run (fun _ => false)
       (init [done; done; done;
              exits 0 (Some (JArr [JObj [("type", JStr "PipeWire:Interface:Node");
                                         ("id", JInt 1);
                                         ("info", JObj [("props",
                                            JObj [("media.class", JStr "Stream/Output/Audio");
                                                  ("application.name", JInt 2048)])])]]))%string])
  = (Raise TypeError,
     {| world := []; 
        issued := [which_cmd "pw-cli"; which_cmd "pw-link"; which_cmd "pw-dump";
                   dump_cmd];
        calls := []; internal_links := [] |}).
Proof. reflexivity. Qed.
